(** * Simple TODO app (React Native): the goal list, the modal and its form

    A shallow embedding of [App.js], [components/GoalInput/index.js],
    [components/GoalInput/ActionButton.js] and [components/GoalCard].

    - A goal is the object [{ text, id }]; the list of goals is a JS array,
      here a [list Goal] in insertion order.
    - The three [useState] cells ([listOfGoals] and [modalIsVisible] of [App],
      [enteredGoal] of [GoalInput]) are the fields of [World].
    - A state setter called inside an event handler does not write the cell:
      it queues an update, and React applies the queue in order once the
      handler has returned.  Handlers are therefore programs in a state monad
      over the pending queue ([Act]), and [dispatch] runs one and flushes.
    - [Math.random().toString()] is an effect.  The value of its k-th
      evaluation in the session is given by an oracle [nat -> string]; the
      world counts the evaluations made so far.
    - A component is a function from its props (and hook values) to an
      element tree.  The tree keeps the handlers it was given, so that a press
      is the application of the handler found in the tree to the arguments the
      platform supplies.  A modal whose [visible] prop is false mounts none of
      its children: nothing below it can be seen, pressed or typed into. *)

From Stdlib Require Import List String Bool Arith Lia.
Import ListNotations.
Local Open Scope string_scope.
Local Open Scope list_scope.

Set Warnings "-register-all".

(** ** A small state monad *)

Definition State (S A : Type) : Type := S -> A * S.

Definition ret {S A : Type} (a : A) : State S A := fun s => (a, s).

Definition bind {S A B : Type} (m : State S A) (k : A -> State S B) : State S B :=
  fun s => let (a, s') := m s in k a s'.

Declare Scope js_scope.
Delimit Scope js_scope with js.
Notation "x <- m ;; k" := (bind m (fun x => k))
  (at level 61, m at next level, right associativity) : js_scope.
Notation "m ;; k" := (bind m (fun _ => k))
  (at level 61, right associativity) : js_scope.
Local Open Scope js_scope.

(** ** Data model *)

(** [{ text: enteredGoal, id: Math.random().toString() }] *)
Record Goal : Type := mkGoal { text : string; id : string }.

(** The values a handler can be called with.  [GestureEvent] stands for the
    press event object of the platform. *)
Inductive JsValue : Type :=
| JsUndefined
| JsString (s : string)
| GestureEvent (timestamp : nat).

(** The value of a [styles] prop, by the name of the style sheet entry. *)
Definition Style : Type := string.

(** The hook cells of [App] and [GoalInput], and the number of evaluations
    of [Math.random()] so far. *)
Record World : Type := mkWorld {
  listOfGoals : list Goal;
  modalIsVisible : bool;
  enteredGoal : string;
  randomCalls : nat
}.

(** Effects an updater function may have: it draws from [Math.random]. *)
Definition Rand : Type -> Type := State nat.

(** A queued state update.  [setListOfGoals] is only ever given an updater
    function, the two other setters a plain value. *)
Inductive Update : Type :=
| UpdListOfGoals (updater : list Goal -> Rand (list Goal))
| UpdModalIsVisible (value : bool)
| UpdEnteredGoal (value : string).

(** The body of an event handler: it appends to React's pending queue. *)
Definition Act : Type -> Type := State (list Update).

Definition setListOfGoals (updater : list Goal -> Rand (list Goal)) : Act unit :=
  fun queue => (tt, queue ++ [UpdListOfGoals updater]).

Definition setModalIsVisible (value : bool) : Act unit :=
  fun queue => (tt, queue ++ [UpdModalIsVisible value]).

Definition setEnteredGoal (value : string) : Act unit :=
  fun queue => (tt, queue ++ [UpdEnteredGoal value]).

(** A JS function used as a handler prop: it is applied to an argument list
    and has an effect of type [E].  A function declared with no parameter
    ignores the list. *)
Definition Handler (E : Type) : Type := list JsValue -> E.

(** ** Element trees *)

Inductive Element (E : Type) : Type :=
| Text (content : string)
| Image
| StatusBar
| View (children : list (Element E))
| Pressable (onPress : Handler E) (children : list (Element E))
| TextInput (value : string) (onChangeText : string -> E)
| Modal (visible : bool) (children : list (Element E))
| Button (title : string) (onPress : Handler E)
| FlatList (data : list Goal).

Arguments Text {E} content.
Arguments Image {E}.
Arguments StatusBar {E}.
Arguments View {E} children.
Arguments Pressable {E} onPress children.
Arguments TextInput {E} value onChangeText.
Arguments Modal {E} visible children.
Arguments Button {E} title onPress.
Arguments FlatList {E} data.

(** The platform side of a press: the element's [onPress] prop is called with
    the arguments the platform passes. *)
Definition activate {E : Type} (e : Element E) (args : list JsValue) : option E :=
  match e with
  | Pressable onPress _ => Some (onPress args)
  | Button _ onPress => Some (onPress args)
  | _ => None
  end.

Fixpoint hasText {E : Type} (label : string) (e : Element E) : bool :=
  match e with
  | Text content => String.eqb content label
  | View children => existsb (hasText label) children
  | Pressable _ children => existsb (hasText label) children
  | Modal visible children =>
      if visible then existsb (hasText label) children else false
  | _ => false
  end.

(** The first pressable element mounted in the tree, in document order, that
    shows [label].  The children of a hidden modal are not mounted. *)
Fixpoint findByLabel {E : Type} (label : string) (e : Element E) : option (Element E) :=
  let fix first (l : list (Element E)) : option (Element E) :=
    match l with
    | [] => None
    | c :: rest =>
        match findByLabel label c with
        | Some found => Some found
        | None => first rest
        end
    end in
  match e with
  | Pressable _ children =>
      if existsb (hasText label) children then Some e else first children
  | Button title _ => if String.eqb title label then Some e else None
  | View children => first children
  | Modal visible children => if visible then first children else None
  | _ => None
  end.

(** ** components/GoalInput/ActionButton.js *)

Definition ActionButton {E : Type} (content : string) (handler : Handler E)
    (styles : Style) : Element E :=
  Pressable handler [View [Text content]].

(** ** components/HorizontalLine (unnamed/part_000) *)

Definition HorizontalLine {E : Type} : Element E := View [].

(** ** components/GoalInput/index.js *)

Record GoalInputProps : Type := mkGoalInputProps {
  addGoalHanlder : string -> Act unit;
  visibilty : bool;
  closeModal : Handler (Act unit)
}.

Definition goalInputHandler (enteredText : string) : Act unit :=
  setEnteredGoal enteredText.

(** [enteredGoal] is the value of the hook at the render that built the
    handler. *)
Definition handleAddNewGoal (props : GoalInputProps) (enteredGoal : string)
    : Handler (Act unit) :=
  fun _ =>
    addGoalHanlder props enteredGoal ;;
    setEnteredGoal "".

Definition GoalInput (props : GoalInputProps) (enteredGoal : string)
    : Element (Act unit) :=
  Modal (visibilty props)
    [View
       [View [Image];
        TextInput enteredGoal goalInputHandler;
        View
          [ActionButton "Add Goal" (handleAddNewGoal props enteredGoal) "addGoalButton";
           ActionButton "Cancel" (closeModal props) "cancelButton"]]].

(** ** App.js *)

Section App.

(** [Math_random_toString k]: the text of the value the k-th evaluation of
    [Math.random()] returns in this session. *)
Variable Math_random_toString : nat -> string.

Definition randomId : Rand string :=
  fun calls => (Math_random_toString calls, S calls).

Definition modalVisibility : Handler (Act unit) :=
  fun _ => setModalIsVisible true.

Definition handleCloseModal : Handler (Act unit) :=
  fun _ => setModalIsVisible false.

Definition addNewGoals (enteredGoal : string) : Act unit :=
  setListOfGoals (fun currentGoals =>
    newId <- randomId ;;
    ret (currentGoals ++ [mkGoal enteredGoal newId])) ;;
  setModalIsVisible false.

Definition deleteGoal (goalId : string) : Act unit :=
  setListOfGoals (fun currentGoals =>
    ret (filter (fun goal => negb (String.eqb (id goal) goalId)) currentGoals)).

Definition App (w : World) : Element (Act unit) :=
  View
    [StatusBar;
     View
       [Button "Add Goals" modalVisibility;
        GoalInput
          (mkGoalInputProps addNewGoals (modalIsVisible w) handleCloseModal)
          (enteredGoal w);
        HorizontalLine;
        FlatList (listOfGoals w)]].

(** ** React: applying the queue *)

Definition applyUpdate (w : World) (u : Update) : World :=
  match u with
  | UpdListOfGoals updater =>
      let (goals, calls) := updater (listOfGoals w) (randomCalls w) in
      mkWorld goals (modalIsVisible w) (enteredGoal w) calls
  | UpdModalIsVisible value =>
      mkWorld (listOfGoals w) value (enteredGoal w) (randomCalls w)
  | UpdEnteredGoal value =>
      mkWorld (listOfGoals w) (modalIsVisible w) value (randomCalls w)
  end.

Definition flush (queue : list Update) (w : World) : World :=
  fold_left applyUpdate queue w.

(** One event: the handler body runs on an empty queue, then React applies
    what it queued. *)
Definition dispatch (body : Act unit) (w : World) : World :=
  flush (snd (body [])) w.

(** A press on the control that shows [label], in the tree [App] renders. *)
Definition press (label : string) (args : list JsValue) (w : World) : option World :=
  match findByLabel label (App w) with
  | Some e =>
      match activate e args with
      | Some body => Some (dispatch body w)
      | None => None
      end
  | None => None
  end.

(** Typing in the text field of the form. *)
Definition changeText (enteredText : string) (w : World) : World :=
  dispatch (goalInputHandler enteredText) w.

(** ** The operations of the root container, as events *)

Definition openForm (args : list JsValue) (w : World) : World :=
  dispatch (modalVisibility args) w.

Definition closeForm (args : list JsValue) (w : World) : World :=
  dispatch (handleCloseModal args) w.

Definition addItem (enteredGoal : string) (w : World) : World :=
  dispatch (addNewGoals enteredGoal) w.

Definition deleteItem (goalId : string) (w : World) : World :=
  dispatch (deleteGoal goalId) w.

Definition addItems (texts : list string) (w : World) : World :=
  fold_left (fun acc t => addItem t acc) texts w.

Inductive Op : Type :=
| OpAdd (enteredGoal : string)
| OpDelete (goalId : string).

Definition runOp (w : World) (op : Op) : World :=
  match op with
  | OpAdd enteredGoal => addItem enteredGoal w
  | OpDelete goalId => deleteItem goalId w
  end.

Definition runOps (ops : list Op) (w : World) : World :=
  fold_left runOp ops w.

Definition countAdds (ops : list Op) : nat :=
  List.length (filter (fun op => match op with OpAdd _ => true | OpDelete _ => false end) ops).

End App.

(** The state of the hooks before the first event: [useState([])],
    [useState(false)], [useState("")]. *)
Definition initialWorld : World := mkWorld [] false "" 0.

(** What the specification's words say [deleteItem] does: drop the first goal
    whose id is the argument, keep everything else. *)
Fixpoint removeFirst (goalId : string) (goals : list Goal) : list Goal :=
  match goals with
  | [] => []
  | goal :: rest =>
      if String.eqb (id goal) goalId then rest else goal :: removeFirst goalId rest
  end.

(** A callback that records the argument list of each of its calls. *)
Definition spy : Handler (State (list (list JsValue)) unit) :=
  fun args calls => (tt, calls ++ [args]).

(** The test of the filter in [deleteGoal]: [goal.id !== goalId]. *)
Definition keeps (goalId : string) (goal : Goal) : bool :=
  negb (String.eqb (id goal) goalId).

(** The number of goals of the list that carry [goalId]. *)
Definition occurrences (goalId : string) (goals : list Goal) : nat :=
  List.length (filter (fun goal => String.eqb (id goal) goalId) goals).

(** ** Reading the rendered tree *)

(** The first element mounted in the tree, in document order, that satisfies
    [p].  The children of a hidden modal are not mounted. *)
Fixpoint findElement {E : Type} (p : Element E -> bool) (e : Element E)
    : option (Element E) :=
  let fix first (l : list (Element E)) : option (Element E) :=
    match l with
    | [] => None
    | c :: rest =>
        match findElement p c with
        | Some found => Some found
        | None => first rest
        end
    end in
  if p e then Some e
  else
    match e with
    | View children => first children
    | Pressable _ children => first children
    | Modal visible children => if visible then first children else None
    | _ => None
    end.

Definition isTextInput {E : Type} (e : Element E) : bool :=
  match e with TextInput _ _ => true | _ => false end.

Definition isModal {E : Type} (e : Element E) : bool :=
  match e with Modal _ _ => true | _ => false end.

Definition isFlatList {E : Type} (e : Element E) : bool :=
  match e with FlatList _ => true | _ => false end.


Definition isText {E : Type} (e : Element E) : bool :=
  match e with Text _ => true | _ => false end.

(** ** components/GoalCard (in App.js) *)

(** What the list passes to [renderItem]: [{ item, index, ... }]. *)
Record ItemData : Type := mkItemData { item : Goal; index : nat }.

Definition GoalCard {E : Type} (goal : ItemData) (onDeleteGoal : string -> E)
    : Element E :=
  let goalName := text (item goal) in
  let goalId := id (item goal) in
  let DeleteGoal : Handler E := fun _ => onDeleteGoal goalId in
  View [Text goalName; Pressable DeleteGoal [View [Text "Delete"]]].

(** [renderItem] of the list in [App]. *)
Definition renderItem (itemData : ItemData) : Element (Act unit) :=
  GoalCard itemData deleteGoal.

(** The rows a list makes of its data: [renderItem] on every element, with
    its position.  (All rows are taken as rendered; scrolling brings any of
    them on screen.) *)
Definition rowsOf {E : Type} (render : ItemData -> Element E) (data : list Goal)
    : list (Element E) :=
  map (fun p => render (mkItemData (snd p) (fst p)))
      (combine (seq 0 (List.length data)) data).

(** The text a card shows: its first text element. *)
Definition cardTitle {E : Type} (card : Element E) : option string :=
  match findElement isText card with
  | Some (Text content) => Some content
  | _ => None
  end.

Section Screen.

Variable rnd : nat -> string.

(** The cards under the list of the tree [App] renders. *)
Definition rows (w : World) : list (Element (Act unit)) :=
  match findElement isFlatList (App rnd w) with
  | Some (FlatList data) => rowsOf renderItem data
  | _ => []
  end.

(** A press on "Delete" in the card at position [i]. *)
Definition pressDelete (i : nat) (args : list JsValue) (w : World) : option World :=
  match nth_error (rows w) i with
  | Some card =>
      match findByLabel "Delete" card with
      | Some e =>
          match activate e args with
          | Some body => Some (dispatch body w)
          | None => None
          end
      | None => None
      end
  | None => None
  end.

(** The [value] prop of the text field mounted in the tree [App] renders. *)
Definition shownDraft (w : World) : option string :=
  match findElement isTextInput (App rnd w) with
  | Some (TextInput value _) => Some value
  | _ => None
  end.

(** The [visible] prop of the modal in the tree [App] renders. *)
Definition shownModal (w : World) : option bool :=
  match findElement isModal (App rnd w) with
  | Some (Modal visible _) => Some visible
  | _ => None
  end.

(** The [data] prop of the list in the tree [App] renders. *)
Definition shownGoals (w : World) : option (list Goal) :=
  match findElement isFlatList (App rnd w) with
  | Some (FlatList data) => Some data
  | _ => None
  end.

(** The user edits the text field: the platform calls the [onChangeText]
    prop of the field in the tree with the new content. *)
Definition typeText (enteredText : string) (w : World) : option World :=
  match findElement isTextInput (App rnd w) with
  | Some (TextInput _ onChangeText) => Some (dispatch (onChangeText enteredText) w)
  | _ => None
  end.

(** What a user can do.  Every event goes through the rendered tree;
    [EvDelete i] is a press on "Delete" in the card at position [i].  An
    event aimed at a control that is not there changes nothing. *)
Inductive Event : Type :=
| EvOpen (args : list JsValue)
| EvType (enteredText : string)
| EvSubmit (args : list JsValue)
| EvCancel (args : list JsValue)
| EvDelete (i : nat) (args : list JsValue).

Definition orStay (w : World) (next : option World) : World :=
  match next with
  | Some w' => w'
  | None => w
  end.

Definition stepEvent (w : World) (ev : Event) : World :=
  match ev with
  | EvOpen args => orStay w (press rnd "Add Goals" args w)
  | EvType enteredText => orStay w (typeText enteredText w)
  | EvSubmit args => orStay w (press rnd "Add Goal" args w)
  | EvCancel args => orStay w (press rnd "Cancel" args w)
  | EvDelete i args => orStay w (pressDelete i args w)
  end.

Definition runEvents (evs : list Event) (w : World) : World :=
  fold_left stepEvent evs w.

Definition countSubmits (evs : list Event) : nat :=
  List.length
    (filter (fun ev => match ev with EvSubmit _ => true | _ => false end) evs).

(** The goal an event creates in state [w], if any: a press on "Add Goal"
    while the form is on screen makes one from the draft and the next value
    of [Math.random]. *)
Definition createdBy (w : World) (ev : Event) : list Goal :=
  match ev with
  | EvSubmit _ =>
      if modalIsVisible w
      then [mkGoal (enteredGoal w) (rnd (randomCalls w))]
      else []
  | _ => []
  end.

(** The goals the events of a run create, in the order of creation. *)
Fixpoint created (evs : list Event) (w : World) : list Goal :=
  match evs with
  | [] => []
  | ev :: rest => createdBy w ev ++ created rest (stepEvent w ev)
  end.

Definition isDelete (ev : Event) : bool :=
  match ev with EvDelete _ _ => true | _ => false end.

End Screen.

(** [Subseq l1 l2]: [l1] is [l2] with some elements left out, the others in
    the order they have in [l2]. *)
Inductive Subseq {A : Type} : list A -> list A -> Prop :=
| Subseq_nil : Subseq [] []
| Subseq_skip (x : A) (l1 l2 : list A) : Subseq l1 l2 -> Subseq l1 (x :: l2)
| Subseq_keep (x : A) (l1 l2 : list A) : Subseq l1 l2 -> Subseq (x :: l1) (x :: l2).

(** * Properties *)

(** ** The net effect of each operation on the hook cells *)

Lemma deleteItem_eq (goalId : string) (w : World) :
  deleteItem goalId w =
  mkWorld (filter (keeps goalId) (listOfGoals w))
          (modalIsVisible w) (enteredGoal w) (randomCalls w).
Proof. reflexivity. Qed.

Lemma addItem_eq (rnd : nat -> string) (enteredText : string) (w : World) :
  addItem rnd enteredText w =
  mkWorld (listOfGoals w ++ [mkGoal enteredText (rnd (randomCalls w))])
          false (enteredGoal w) (S (randomCalls w)).
Proof. reflexivity. Qed.

Lemma openForm_eq (args : list JsValue) (w : World) :
  openForm args w =
  mkWorld (listOfGoals w) true (enteredGoal w) (randomCalls w).
Proof. reflexivity. Qed.

Lemma closeForm_eq (args : list JsValue) (w : World) :
  closeForm args w =
  mkWorld (listOfGoals w) false (enteredGoal w) (randomCalls w).
Proof. reflexivity. Qed.


(** ** Filtering by id *)

Lemma keeps_true (goalId : string) (goal : Goal) :
  keeps goalId goal = true <-> id goal <> goalId.
Proof.
  unfold keeps. rewrite negb_true_iff.
  destruct (String.eqb_spec (id goal) goalId) as [e | n].
  - split; [discriminate | intro H; contradiction].
  - split; [intros _; exact n | reflexivity].
Qed.

Lemma filter_keeps_absent (goalId : string) (goals : list Goal) :
  Forall (fun goal => id goal <> goalId) goals ->
  filter (keeps goalId) goals = goals.
Proof.
  induction 1 as [| goal rest Hgoal _ IH]; simpl.
  - reflexivity.
  - apply keeps_true in Hgoal. rewrite Hgoal, IH. reflexivity.
Qed.

Lemma filter_keeps_Forall (goalId : string) (goals : list Goal) :
  Forall (fun goal => id goal <> goalId) (filter (keeps goalId) goals).
Proof.
  apply Forall_forall. intros goal Hin.
  apply filter_In in Hin. apply keeps_true. exact (proj2 Hin).
Qed.

Lemma occurrences_zero (goalId : string) (goals : list Goal) :
  occurrences goalId goals = 0 ->
  Forall (fun goal => id goal <> goalId) goals.
Proof.
  unfold occurrences. induction goals as [| goal rest IH]; simpl; intro H.
  - constructor.
  - destruct (String.eqb_spec (id goal) goalId) as [e | n].
    + discriminate H.
    + constructor; [exact n | exact (IH H)].
Qed.

Lemma filter_keeps_removeFirst (goalId : string) (goals : list Goal) :
  occurrences goalId goals <= 1 ->
  filter (keeps goalId) goals = removeFirst goalId goals.
Proof.
  unfold occurrences. induction goals as [| goal rest IH]; simpl; intro H.
  - reflexivity.
  - unfold keeps at 1.
    destruct (String.eqb (id goal) goalId) eqn:E; simpl in *.
    + apply filter_keeps_absent, occurrences_zero.
      unfold occurrences. lia.
    + f_equal. exact (IH H).
Qed.

(** ** Deleting *)

(** C1 (as amended): for every state and every id, [deleteItem] removes
    every goal whose id equals the argument, which is the first and only one
    whenever at most one goal carries that id; every other goal is kept, in
    the same relative order, and the other cells are untouched. *)
Theorem deleteItem_removes_matches (goalId : string) (w : World) :
  Forall (fun goal => id goal <> goalId) (listOfGoals (deleteItem goalId w))
  /\ filter (keeps goalId) (listOfGoals (deleteItem goalId w))
     = filter (keeps goalId) (listOfGoals w)
  /\ deleteItem goalId w =
       mkWorld (listOfGoals (deleteItem goalId w))
               (modalIsVisible w) (enteredGoal w) (randomCalls w)
  /\ (occurrences goalId (listOfGoals w) <= 1 ->
      listOfGoals (deleteItem goalId w) = removeFirst goalId (listOfGoals w)).
Proof.
  rewrite deleteItem_eq. cbn [listOfGoals].
  split; [| split; [| split]].
  - apply filter_keeps_Forall.
  - apply filter_keeps_absent, filter_keeps_Forall.
  - reflexivity.
  - apply filter_keeps_removeFirst.
Qed.

Lemma deleteItem_removes_matches_witness :
  let w := mkWorld [mkGoal "Learn Go" "0.25"; mkGoal "Learn Rust" "0.75"] false "" 2 in
  occurrences "0.25" (listOfGoals w) <= 1
  /\ listOfGoals (deleteItem "0.25" w) = removeFirst "0.25" (listOfGoals w)
  /\ removeFirst "0.25" (listOfGoals w) = [mkGoal "Learn Rust" "0.75"].
Proof.
  cbv zeta.
  assert (H : occurrences "0.25"
                (listOfGoals (mkWorld [mkGoal "Learn Go" "0.25"; mkGoal "Learn Rust" "0.75"]
                                      false "" 2)) <= 1).
  { vm_compute. lia. }
  split; [exact H | split].
  - exact (proj2 (proj2 (proj2 (deleteItem_removes_matches "0.25"
      (mkWorld [mkGoal "Learn Go" "0.25"; mkGoal "Learn Rust" "0.75"] false "" 2)))) H).
  - reflexivity.
Defined.

(** C1 (as stated) fails when two goals share the id: both are removed, not
    the first one only.  The state is the one two submissions reach when
    [Math.random] returns the same value twice. *)
Lemma deleteItem_drops_every_duplicate :
  let w := runOps (fun _ => "0.5") [OpAdd "Learn Go"; OpAdd "Learn Rust"] initialWorld in
  listOfGoals w = [mkGoal "Learn Go" "0.5"; mkGoal "Learn Rust" "0.5"]
  /\ listOfGoals (deleteItem "0.5" w) = []
  /\ removeFirst "0.5" (listOfGoals w) = [mkGoal "Learn Rust" "0.5"]
  /\ listOfGoals (deleteItem "0.5" w) <> removeFirst "0.5" (listOfGoals w).
Proof.
  cbv zeta. repeat split; try reflexivity. vm_compute. discriminate.
Qed.

(** C5: deleting an id that no goal of the list carries leaves every cell as
    it was: same goals, same order, same length.  [deleteItem] is a total
    function, so no error can be raised. *)
Theorem deleteItem_absent_id_unchanged (goalId : string) (w : World) :
  (forall goal, In goal (listOfGoals w) -> id goal <> goalId) ->
  deleteItem goalId w = w
  /\ List.length (listOfGoals (deleteItem goalId w)) = List.length (listOfGoals w).
Proof.
  intro Habsent.
  assert (E : deleteItem goalId w = w).
  { rewrite deleteItem_eq, filter_keeps_absent.
    - destruct w; reflexivity.
    - apply Forall_forall. exact Habsent. }
  rewrite E. split; reflexivity.
Qed.

Lemma deleteItem_absent_id_unchanged_witness :
  deleteItem "0.99" (mkWorld [mkGoal "Learn Go" "0.25"; mkGoal "" "0.75"] true "draft" 2)
  = mkWorld [mkGoal "Learn Go" "0.25"; mkGoal "" "0.75"] true "draft" 2.
Proof.
  refine (proj1 (deleteItem_absent_id_unchanged "0.99"
    (mkWorld [mkGoal "Learn Go" "0.25"; mkGoal "" "0.75"] true "draft" 2) _)).
  simpl. intros goal [E | [E | []]]; subst goal; simpl; discriminate.
Defined.

(** C10: [deleteItem] is idempotent: a second call with the same id changes
    nothing, because after the first call no goal carries that id, however
    many goals carried it before. *)
Theorem deleteItem_idempotent (goalId : string) (w : World) :
  deleteItem goalId (deleteItem goalId w) = deleteItem goalId w
  /\ Forall (fun goal => id goal <> goalId) (listOfGoals (deleteItem goalId w))
  /\ occurrences goalId (listOfGoals (deleteItem goalId w)) = 0.
Proof.
  rewrite !deleteItem_eq. cbn [listOfGoals modalIsVisible enteredGoal randomCalls].
  split; [| split].
  - rewrite (filter_keeps_absent _ _ (filter_keeps_Forall goalId (listOfGoals w))).
    reflexivity.
  - apply filter_keeps_Forall.
  - unfold occurrences.
    induction (listOfGoals w) as [| goal rest IH]; simpl.
    + reflexivity.
    + unfold keeps at 1.
      destruct (String.eqb (id goal) goalId) eqn:E; simpl.
      * exact IH.
      * rewrite E. exact IH.
Qed.

(** ** Adding *)

Section Adding.

Variable rnd : nat -> string.

(** C2: for every text, the empty one included, [addItem] puts the goal
    [{ text, id }] with a newly drawn id at the end of the list and sets the
    visibility flag to false; the list update is queued first, the flag
    second.  [addItem] is a total function: there is no path that rejects. *)
Theorem addItem_appends_then_hides (enteredText : string) (w : World) :
  addItem rnd enteredText w =
    mkWorld (listOfGoals w ++ [mkGoal enteredText (rnd (randomCalls w))])
            false (enteredGoal w) (S (randomCalls w))
  /\ (exists updater,
        snd (addNewGoals rnd enteredText []) =
          [UpdListOfGoals updater; UpdModalIsVisible false]
        /\ updater (listOfGoals w) (randomCalls w) =
             (listOfGoals w ++ [mkGoal enteredText (rnd (randomCalls w))],
              S (randomCalls w)))
  /\ listOfGoals (addItem rnd "" w) =
       listOfGoals w ++ [mkGoal "" (rnd (randomCalls w))].
Proof.
  split; [apply addItem_eq | split].
  - eexists. split; reflexivity.
  - reflexivity.
Qed.

Lemma addItems_eq (texts : list string) (w : World) :
  addItems rnd texts w =
  mkWorld (listOfGoals w ++
             map (fun p => mkGoal (snd p) (rnd (fst p)))
                 (combine (seq (randomCalls w) (List.length texts)) texts))
          (match texts with [] => modalIsVisible w | _ :: _ => false end)
          (enteredGoal w)
          (randomCalls w + List.length texts).
Proof.
  revert w. induction texts as [| t rest IH]; intro w.
  - simpl. rewrite app_nil_r, Nat.add_0_r. destruct w; reflexivity.
  - change (addItems rnd (t :: rest) w) with (addItems rnd rest (addItem rnd t w)).
    rewrite IH, addItem_eq. cbn [listOfGoals modalIsVisible enteredGoal randomCalls].
    rewrite <- app_assoc. simpl. f_equal.
    + destruct rest; reflexivity.
    + lia.
Qed.

(** C6: a run of [addItem] calls with no deletion in between makes the list
    longer by the number of calls, leaves the goals that were there where
    they were, and puts the new goals after them in call order: the texts of
    the tail are the texts of the calls, its ids the ids drawn, in order. *)
Theorem addItems_appends_in_call_order (texts : list string) (w : World) :
  let goals := listOfGoals (addItems rnd texts w) in
  List.length goals = List.length (listOfGoals w) + List.length texts
  /\ firstn (List.length (listOfGoals w)) goals = listOfGoals w
  /\ map text (skipn (List.length (listOfGoals w)) goals) = texts
  /\ map id (skipn (List.length (listOfGoals w)) goals) =
       map rnd (seq (randomCalls w) (List.length texts)).
Proof.
  cbv zeta. rewrite addItems_eq. cbn [listOfGoals].
  set (old := listOfGoals w). set (n := randomCalls w).
  assert (Hlen : List.length (combine (seq n (List.length texts)) texts)
                 = List.length texts).
  { rewrite length_combine, length_seq. apply Nat.min_id. }
  assert (Hskip : forall tail : list Goal,
             skipn (List.length old) (old ++ tail) = tail).
  { intro tail. rewrite skipn_app, skipn_all, Nat.sub_diag. reflexivity. }
  repeat split.
  - rewrite length_app, length_map, Hlen. reflexivity.
  - rewrite firstn_app, firstn_all, Nat.sub_diag. simpl. apply app_nil_r.
  - rewrite Hskip, map_map. simpl.
    clear Hlen. generalize n. induction texts as [| t rest IH]; intro k.
    + reflexivity.
    + simpl. f_equal. apply IH.
  - rewrite Hskip, map_map. simpl.
    clear Hlen. generalize n. induction texts as [| t rest IH]; intro k.
    + reflexivity.
    + simpl. f_equal. apply IH.
Qed.

End Adding.

(** ** Ids of the goals in reachable states *)

Lemma NoDup_snoc (A : Type) (l : list A) (a : A) :
  NoDup l -> ~ In a l -> NoDup (l ++ [a]).
Proof.
  intros Hl Ha. apply NoDup_app.
  - exact Hl.
  - constructor; [intros [] | constructor].
  - intros x Hx [E | []]. subst x. exact (Ha Hx).
Qed.

Lemma NoDup_ids_filter (f : Goal -> bool) (goals : list Goal) :
  NoDup (map id goals) -> NoDup (map id (filter f goals)).
Proof.
  induction goals as [| goal rest IH]; simpl; intro H.
  - constructor.
  - apply NoDup_cons_iff in H. destruct H as [Hnotin Hrest].
    destruct (f goal); simpl.
    + constructor; [| exact (IH Hrest)].
      intro Hin. apply Hnotin.
      apply in_map_iff in Hin. destruct Hin as [g [Eg Hg]].
      apply filter_In in Hg. apply in_map_iff. exists g. tauto.
    + exact (IH Hrest).
Qed.

Lemma incl_ids_filter (f : Goal -> bool) (goals : list Goal) :
  incl (map id (filter f goals)) (map id goals).
Proof.
  intros x Hin. apply in_map_iff in Hin. destruct Hin as [g [Eg Hg]].
  apply filter_In in Hg. apply in_map_iff. exists g. tauto.
Qed.

Section Reachable.

Variable rnd : nat -> string.

(** The invariant behind C7: the ids of the list are among the values drawn
    so far, and those and the values still to be drawn are all different. *)
Lemma runOps_ids_distinct (ops : list Op) :
  forall (w : World) (drawn : list string),
    incl (map id (listOfGoals w)) drawn ->
    NoDup (map id (listOfGoals w)) ->
    NoDup (drawn ++ map rnd (seq (randomCalls w) (countAdds ops))) ->
    NoDup (map id (listOfGoals (runOps rnd ops w))).
Proof.
  induction ops as [| op rest IH]; intros w drawn Hincl Hnodup Hfresh.
  - exact Hnodup.
  - change (runOps rnd (op :: rest) w) with (runOps rnd rest (runOp rnd w op)).
    destruct op as [enteredText | goalId]; cbn [runOp].
    + change (countAdds (OpAdd enteredText :: rest)) with (S (countAdds rest)) in Hfresh.
      cbn [seq map] in Hfresh.
      apply (IH _ (drawn ++ [rnd (randomCalls w)])); rewrite addItem_eq;
        cbn [listOfGoals randomCalls].
      * rewrite map_app. cbn [map id].
        apply incl_app; [apply incl_appl; exact Hincl | apply incl_appr, incl_refl].
      * rewrite map_app. cbn [map id]. apply NoDup_snoc; [exact Hnodup |].
        intro Hin. apply (NoDup_remove_2 _ _ _ Hfresh).
        apply in_or_app. left. apply Hincl. exact Hin.
      * rewrite <- app_assoc. exact Hfresh.
    + change (countAdds (OpDelete goalId :: rest)) with (countAdds rest) in Hfresh.
      apply (IH _ drawn); rewrite deleteItem_eq; cbn [listOfGoals randomCalls].
      * intros x Hx. apply Hincl. exact (incl_ids_filter _ _ x Hx).
      * apply NoDup_ids_filter. exact Hnodup.
      * exact Hfresh.
Qed.

Lemma countAdds_firstn (k : nat) (ops : list Op) :
  countAdds (firstn k ops) <= countAdds ops.
Proof.
  unfold countAdds. revert k.
  induction ops as [| op rest IH]; intros [| k]; simpl; try lia.
  specialize (IH k). destruct op; simpl; lia.
Qed.

Lemma NoDup_draws_fewer (calls m n : nat) :
  m <= n ->
  NoDup (map rnd (seq calls n)) -> NoDup (map rnd (seq calls m)).
Proof.
  intros Hle H. replace n with (m + (n - m)) in H by lia.
  rewrite seq_app, map_app in H. exact (NoDup_app_remove_r _ _ H).
Qed.

(** C7 (as amended): starting from the empty list, whatever the other cells
    hold, if the values [Math.random] returns during a run of [addItem] and
    [deleteItem] calls are pairwise different, then no two goals of the list
    share an id at any point of the run. *)
Theorem distinct_draws_keep_ids_distinct
    (ops : list Op) (visible : bool) (draft : string) (calls : nat) :
  NoDup (map rnd (seq calls (countAdds ops))) ->
  forall k : nat,
    NoDup (map id (listOfGoals
      (runOps rnd (firstn k ops) (mkWorld [] visible draft calls)))).
Proof.
  intros Hfresh k. apply (runOps_ids_distinct (firstn k ops) _ []).
  - apply incl_refl.
  - constructor.
  - exact (NoDup_draws_fewer calls _ _ (countAdds_firstn k ops) Hfresh).
Qed.

End Reachable.

Lemma distinct_draws_keep_ids_distinct_witness :
  let rnd := fun k => match k with 0 => "0.25" | 1 => "0.75" | _ => "0.5" end in
  let ops := [OpAdd "Learn Go"; OpAdd "Learn Rust"; OpDelete "0.25"; OpAdd ""] in
  NoDup (map rnd (seq 0 (countAdds ops)))
  /\ NoDup (map id (listOfGoals (runOps rnd (firstn 4 ops) initialWorld))).
Proof.
  cbv zeta.
  assert (H : NoDup (map (fun k => match k with 0 => "0.25" | 1 => "0.75" | _ => "0.5" end)
                         (seq 0 (countAdds [OpAdd "Learn Go"; OpAdd "Learn Rust";
                                            OpDelete "0.25"; OpAdd ""])))).
  { simpl. repeat constructor; simpl; intuition discriminate. }
  split.
  - exact H.
  - exact (distinct_draws_keep_ids_distinct _ _ false "" 0 H 4).
Defined.

(** C7 (as stated) fails: nothing in [addNewGoals] compares the new id with
    the ids in the list, so when [Math.random] returns the same value for two
    submissions the two goals share their id. *)
Lemma equal_draws_give_equal_ids :
  let w := runOps (fun _ => "0.5") [OpAdd "Learn Go"; OpAdd "Learn Rust"] initialWorld in
  map id (listOfGoals w) = ["0.5"; "0.5"]
  /\ ~ NoDup (map id (listOfGoals w)).
Proof.
  cbv zeta. split; [reflexivity |].
  intro H. vm_compute in H. apply NoDup_cons_iff in H.
  apply (proj1 H). left. reflexivity.
Qed.

(** ** The form and the modal *)

Section Form.

Variable rnd : nat -> string.

(** The form's buttons are mounted exactly while the modal is visible. *)
Lemma press_AddGoal_eq (args : list JsValue) (w : World) :
  press rnd "Add Goal" args w =
  if modalIsVisible w
  then Some (changeText "" (addItem rnd (enteredGoal w) w))
  else None.
Proof.
  destruct w as [goals visible draft calls]. destruct visible; reflexivity.
Qed.

Lemma press_Cancel_eq (args : list JsValue) (w : World) :
  press rnd "Cancel" args w =
  if modalIsVisible w then Some (closeForm args w) else None.
Proof.
  destruct w as [goals visible draft calls]. destruct visible; reflexivity.
Qed.

(** C3: whatever the flag and the draft are, the form's submit handler calls
    the parent's [addNewGoals] with the draft of that render and then queues
    the reset of the draft; once the queue is applied the goal is at the end
    of the list, the visibility flag is false and the draft is empty.  While
    the modal is visible the "Add Goal" button is mounted and a press on it
    runs that handler; while it is hidden there is no such button. *)
Theorem submit_adds_draft_then_clears (args : list JsValue) (w : World) :
  let onSubmit :=
    handleAddNewGoal
      (mkGoalInputProps (addNewGoals rnd) (modalIsVisible w) handleCloseModal)
      (enteredGoal w) in
  snd (onSubmit args []) =
    snd (addNewGoals rnd (enteredGoal w) []) ++ [UpdEnteredGoal ""]
  /\ dispatch (onSubmit args) w = changeText "" (addItem rnd (enteredGoal w) w)
  /\ dispatch (onSubmit args) w =
       mkWorld (listOfGoals w ++ [mkGoal (enteredGoal w) (rnd (randomCalls w))])
               false "" (S (randomCalls w))
  /\ (modalIsVisible w = true ->
      findByLabel "Add Goal" (App rnd w) =
        Some (ActionButton "Add Goal" onSubmit "addGoalButton")
      /\ press rnd "Add Goal" args w = Some (dispatch (onSubmit args) w))
  /\ (modalIsVisible w = false -> press rnd "Add Goal" args w = None).
Proof.
  cbv zeta. split; [reflexivity | split; [reflexivity | split; [reflexivity |]]].
  split; intro Hflag.
  - split.
    + destruct w as [goals visible draft calls]. cbn [modalIsVisible] in Hflag.
      subst visible. reflexivity.
    + rewrite press_AddGoal_eq, Hflag. reflexivity.
  - rewrite press_AddGoal_eq, Hflag. reflexivity.
Qed.

(** C4: the form's cancel handler is the parent's [handleCloseModal] and
    nothing else: the visibility flag becomes false, the draft is the one
    from before, and the list of goals (and the count of random draws) is as
    it was.  While the modal is visible the "Cancel" button is mounted and a
    press on it runs that handler; while it is hidden there is no such
    button. *)
Theorem cancel_closes_and_keeps_draft (args : list JsValue) (w : World) :
  let onCancel :=
    closeModal
      (mkGoalInputProps (addNewGoals rnd) (modalIsVisible w) handleCloseModal) in
  dispatch (onCancel args) w = closeForm args w
  /\ dispatch (onCancel args) w =
       mkWorld (listOfGoals w) false (enteredGoal w) (randomCalls w)
  /\ (modalIsVisible w = true ->
      findByLabel "Cancel" (App rnd w) =
        Some (ActionButton "Cancel" onCancel "cancelButton")
      /\ press rnd "Cancel" args w =
           Some (mkWorld (listOfGoals w) false (enteredGoal w) (randomCalls w)))
  /\ (modalIsVisible w = false -> press rnd "Cancel" args w = None).
Proof.
  cbv zeta. split; [reflexivity | split; [reflexivity |]].
  split; intro Hflag.
  - split.
    + destruct w as [goals visible draft calls]. cbn [modalIsVisible] in Hflag.
      subst visible. reflexivity.
    + rewrite press_Cancel_eq, Hflag. reflexivity.
  - rewrite press_Cancel_eq, Hflag. reflexivity.
Qed.

(** C8: [openForm] twice is [openForm] once and leaves the flag true;
    [closeForm] on a state whose flag is false returns that state, and twice
    is once; both leave the list, the draft and the random source alone.
    The "Add Goals" button is wired to [openForm]. *)
Theorem openForm_closeForm_idempotent
    (args args' : list JsValue) (w : World)
    (goals : list Goal) (draft : string) (calls : nat) :
  openForm args' (openForm args w) = openForm args w
  /\ openForm args w =
       mkWorld (listOfGoals w) true (enteredGoal w) (randomCalls w)
  /\ closeForm args (mkWorld goals false draft calls) =
       mkWorld goals false draft calls
  /\ closeForm args' (closeForm args w) = closeForm args w
  /\ closeForm args w =
       mkWorld (listOfGoals w) false (enteredGoal w) (randomCalls w)
  /\ press rnd "Add Goals" args w = Some (openForm args w).
Proof.
  repeat split; reflexivity.
Qed.

End Form.

Lemma submit_adds_draft_then_clears_witness :
  press (fun _ => "0.5") "Add Goal" [GestureEvent 7]
    (mkWorld [mkGoal "Learn Go" "0.25"] true "Learn Rust" 1)
  = Some (mkWorld [mkGoal "Learn Go" "0.25"; mkGoal "Learn Rust" "0.5"] false "" 2).
Proof.
  exact (proj2 (proj1 (proj2 (proj2 (proj2
    (submit_adds_draft_then_clears (fun _ => "0.5") [GestureEvent 7]
       (mkWorld [mkGoal "Learn Go" "0.25"] true "Learn Rust" 1)))))
    eq_refl)).
Defined.

Lemma cancel_closes_and_keeps_draft_witness :
  press (fun _ => "0.5") "Cancel" [GestureEvent 7]
    (mkWorld [mkGoal "Learn Go" "0.25"] true "Learn Rust" 1)
  = Some (mkWorld [mkGoal "Learn Go" "0.25"] false "Learn Rust" 1).
Proof.
  exact (proj2 (proj1 (proj2 (proj2
    (cancel_closes_and_keeps_draft (fun _ => "0.5") [GestureEvent 7]
       (mkWorld [mkGoal "Learn Go" "0.25"] true "Learn Rust" 1))))
    eq_refl)).
Defined.

(** ** The action button *)

(** C9 (as amended): an activation of an action button is one call of the
    supplied callback with exactly the argument list the pressable region
    hands to [onPress]; the button adds, drops and changes no argument.
    With a recording callback, the record grows by one entry, that list. *)
Theorem ActionButton_forwards_verbatim
    (E : Type) (content : string) (handler : Handler E) (styles : Style)
    (args : list JsValue) (calls : list (list JsValue)) :
  activate (ActionButton content handler styles) args = Some (handler args)
  /\ option_map (fun body => snd (body calls))
       (activate (ActionButton content spy styles) args) = Some (calls ++ [args]).
Proof.
  split; reflexivity.
Qed.

(** C9 (as stated) fails: [handler] itself is the [onPress] prop, so when the
    platform calls [onPress] with the press event the callback receives that
    event, not an empty argument list. *)
Lemma ActionButton_passes_the_press_event :
  option_map (fun body => snd (body []))
    (activate (ActionButton "Cancel" spy "cancelButton") [GestureEvent 0])
  = Some [[GestureEvent 0]]
  /\ option_map (fun body => snd (body []))
       (activate (ActionButton "Cancel" spy "cancelButton") [GestureEvent 0])
     <> Some [[]].
Proof.
  split; [reflexivity | discriminate].
Qed.

(** * Further properties of the code *)

(** ** The cards of the list *)

Lemma nth_error_rowsOf (E : Type) (render : ItemData -> Element E)
    (data : list Goal) (from i : nat) :
  nth_error (map (fun p => render (mkItemData (snd p) (fst p)))
                 (combine (seq from (List.length data)) data)) i
  = option_map (fun goal => render (mkItemData goal (from + i))) (nth_error data i).
Proof.
  revert from i. induction data as [| goal rest IH]; intros from [| i]; cbn.
  - reflexivity.
  - reflexivity.
  - rewrite Nat.add_0_r. reflexivity.
  - rewrite IH. rewrite Nat.add_succ_r. reflexivity.
Qed.

(** The list is outside the modal: it is mounted whatever the flag is. *)
Lemma findFlatList_eq (rnd : nat -> string) (w : World) :
  findElement isFlatList (App rnd w) = Some (FlatList (listOfGoals w)).
Proof.
  destruct w as [goals visible draft calls]. destruct visible; reflexivity.
Qed.


Lemma pressDelete_eq (rnd : nat -> string) (i : nat) (args : list JsValue) (w : World) :
  pressDelete rnd i args w =
  option_map (fun goal => deleteItem (id goal) w) (nth_error (listOfGoals w) i).
Proof.
  unfold pressDelete, rows. rewrite findFlatList_eq.
  unfold rowsOf. rewrite nth_error_rowsOf.
  destruct (nth_error (listOfGoals w) i) as [goal |]; reflexivity.
Qed.

(** ** Events through the rendered tree *)

(** The text field is mounted exactly while the modal is visible. *)
Lemma typeText_eq (rnd : nat -> string) (enteredText : string) (w : World) :
  typeText rnd enteredText w =
  if modalIsVisible w then Some (changeText enteredText w) else None.
Proof.
  destruct w as [goals visible draft calls]. destruct visible; reflexivity.
Qed.

Lemma stepEvent_eq (rnd : nat -> string) (w : World) (ev : Event) :
  stepEvent rnd w ev =
  match ev with
  | EvOpen args => openForm args w
  | EvType enteredText =>
      if modalIsVisible w then changeText enteredText w else w
  | EvSubmit _ =>
      if modalIsVisible w
      then changeText "" (addItem rnd (enteredGoal w) w)
      else w
  | EvCancel args => if modalIsVisible w then closeForm args w else w
  | EvDelete i _ =>
      match nth_error (listOfGoals w) i with
      | Some goal => deleteItem (id goal) w
      | None => w
      end
  end.
Proof.
  destruct ev as [args | enteredText | args | args | i args]; cbn [stepEvent].
  - reflexivity.
  - rewrite typeText_eq. destruct (modalIsVisible w); reflexivity.
  - rewrite press_AddGoal_eq. destruct (modalIsVisible w); reflexivity.
  - rewrite press_Cancel_eq. destruct (modalIsVisible w); reflexivity.
  - rewrite pressDelete_eq. destruct (nth_error (listOfGoals w) i); reflexivity.
Qed.

Lemma runEvents_cons (rnd : nat -> string) (ev : Event) (evs : list Event) (w : World) :
  runEvents rnd (ev :: evs) w = runEvents rnd evs (stepEvent rnd w ev).
Proof. reflexivity. Qed.

Section Typing.

Variable rnd : nat -> string.

(** X1: [goalInputHandler] stores the new content as the draft exactly as
    given (nothing is trimmed or cut) and touches neither the list, the flag
    nor the random source, and of two edits the last one stays.  While the
    modal is visible the text field is mounted, an edit of it runs that
    handler, and the next render shows the new content; while the modal is
    hidden there is no field to edit or to look at. *)
Theorem typing_overwrites_the_draft (enteredText later : string) (w : World) :
  dispatch (goalInputHandler enteredText) w =
    mkWorld (listOfGoals w) (modalIsVisible w) enteredText (randomCalls w)
  /\ dispatch (goalInputHandler later) (dispatch (goalInputHandler enteredText) w) =
       dispatch (goalInputHandler later) w
  /\ (modalIsVisible w = true ->
      typeText rnd enteredText w = Some (dispatch (goalInputHandler enteredText) w)
      /\ shownDraft rnd (stepEvent rnd w (EvType enteredText)) = Some enteredText
      /\ runEvents rnd [EvType enteredText; EvType later] w =
           stepEvent rnd w (EvType later))
  /\ (modalIsVisible w = false ->
      typeText rnd enteredText w = None /\ shownDraft rnd w = None).
Proof.
  split; [reflexivity | split; [reflexivity |]].
  destruct w as [goals visible draft calls]. cbn [modalIsVisible].
  split; intro Hflag; subst visible; repeat split; reflexivity.
Qed.

(** X2: what the tree [App] renders shows of the state: the modal's
    [visible] prop is the visibility flag (handed down through the
    [visibilty] prop); the text field is mounted, with the draft as its
    value, exactly while that flag is true; the list's data are the goals in
    their order, whatever the flag. *)
Theorem screen_shows_the_state (w : World) :
  shownModal rnd w = Some (modalIsVisible w)
  /\ shownDraft rnd w = (if modalIsVisible w then Some (enteredGoal w) else None)
  /\ shownGoals rnd w = Some (listOfGoals w).
Proof.
  destruct w as [goals visible draft calls]. destruct visible;
    repeat split; reflexivity.
Qed.

(** X3: what is typed is what is added: with the form on screen, after an
    edit to [enteredText] and a press on "Add Goal" the list ends with a goal
    whose text is [enteredText], character for character, whatever the draft
    was before; the modal is closed and the draft empty.  With the form
    hidden neither event has a control to hit and the state stays as it is. *)
Theorem typed_text_is_the_text_added
    (enteredText : string) (args : list JsValue) (w : World) :
  (modalIsVisible w = true ->
   runEvents rnd [EvType enteredText; EvSubmit args] w =
     mkWorld (listOfGoals w ++ [mkGoal enteredText (rnd (randomCalls w))])
             false "" (S (randomCalls w)))
  /\ (modalIsVisible w = false ->
      runEvents rnd [EvType enteredText; EvSubmit args] w = w).
Proof.
  destruct w as [goals visible draft calls]. cbn [modalIsVisible].
  split; intro Hflag; subst visible; reflexivity.
Qed.

(** X4: a cancelled draft comes back: after "Cancel" and "Add Goals" the form
    shows the draft it had before the cancel, and a press on "Add Goal" then
    adds a goal with that text. *)
Theorem cancelled_draft_is_still_there
    (args1 args2 args3 : list JsValue) (w : World) :
  shownDraft rnd (runEvents rnd [EvCancel args1; EvOpen args2] w) = Some (enteredGoal w)
  /\ shownModal rnd (runEvents rnd [EvCancel args1; EvOpen args2] w) = Some true
  /\ runEvents rnd [EvCancel args1; EvOpen args2; EvSubmit args3] w =
       mkWorld (listOfGoals w ++ [mkGoal (enteredGoal w) (rnd (randomCalls w))])
               false "" (S (randomCalls w)).
Proof.
  destruct w as [goals visible draft calls]. destruct visible;
    repeat split; reflexivity.
Qed.

(** X5: a submission closes the form, so a further press on "Add Goal" has no
    button to hit: one goal is added, not two.  Nothing guards against an
    empty submission, though: once the form is opened again, a press on "Add
    Goal" with the cleared draft adds a goal with the empty text and the next
    id. *)
Theorem submit_after_reopen_adds_an_empty_goal
    (args1 args2 args3 : list JsValue) (w : World) :
  modalIsVisible w = true ->
  runEvents rnd [EvSubmit args1; EvSubmit args3] w = runEvents rnd [EvSubmit args1] w
  /\ runEvents rnd [EvSubmit args1] w =
       mkWorld (listOfGoals w ++ [mkGoal (enteredGoal w) (rnd (randomCalls w))])
               false "" (S (randomCalls w))
  /\ runEvents rnd [EvSubmit args1; EvOpen args2; EvSubmit args3] w =
       mkWorld (listOfGoals w ++
                  [mkGoal (enteredGoal w) (rnd (randomCalls w));
                   mkGoal "" (rnd (S (randomCalls w)))])
               false "" (S (S (randomCalls w))).
Proof.
  destruct w as [goals visible draft calls]. cbn [modalIsVisible].
  intro Hflag. subst visible. split; [reflexivity | split; [reflexivity |]].
  match goal with
  | |- ?run = _ =>
      change run with
        (mkWorld ((goals ++ [mkGoal draft (rnd calls)]) ++ [mkGoal "" (rnd (S calls))])
                 false "" (S (S calls)))
  end.
  cbn [listOfGoals enteredGoal randomCalls]. rewrite <- app_assoc. reflexivity.
Qed.

(** X6: on a state whose modal is hidden, opening the form and cancelling it
    gives the state back, draft and list included. *)
Theorem open_then_cancel_is_a_round_trip (args1 args2 : list JsValue) (w : World) :
  modalIsVisible w = false ->
  runEvents rnd [EvOpen args1; EvCancel args2] w = w.
Proof.
  intro Hhidden. destruct w as [goals visible draft calls].
  cbn [modalIsVisible] in Hhidden. subst visible. reflexivity.
Qed.

End Typing.

Lemma typing_overwrites_the_draft_witness :
  typeText (fun _ => "0.5") "  Learn Go " (mkWorld [] true "Le" 0)
  = Some (mkWorld [] true "  Learn Go " 0).
Proof.
  exact (proj1 (proj1 (proj2 (proj2
    (typing_overwrites_the_draft (fun _ => "0.5") "  Learn Go " "x"
       (mkWorld [] true "Le" 0)))) eq_refl)).
Defined.

Lemma typed_text_is_the_text_added_witness :
  runEvents (fun _ => "0.5") [EvType "Learn Go"; EvSubmit [GestureEvent 4]]
    (mkWorld [mkGoal "Learn Rust" "0.25"] true "old draft" 1)
  = mkWorld [mkGoal "Learn Rust" "0.25"; mkGoal "Learn Go" "0.5"] false "" 2.
Proof.
  exact (proj1 (typed_text_is_the_text_added (fun _ => "0.5") "Learn Go"
    [GestureEvent 4] (mkWorld [mkGoal "Learn Rust" "0.25"] true "old draft" 1)) eq_refl).
Defined.

Lemma submit_after_reopen_adds_an_empty_goal_witness :
  runEvents (fun k => match k with 0 => "0.25" | _ => "0.75" end)
    [EvSubmit [GestureEvent 1]; EvOpen [GestureEvent 2]; EvSubmit [GestureEvent 3]]
    (mkWorld [] true "Learn Go" 0)
  = mkWorld [mkGoal "Learn Go" "0.25"; mkGoal "" "0.75"] false "" 2.
Proof.
  exact (proj2 (proj2 (submit_after_reopen_adds_an_empty_goal
    (fun k => match k with 0 => "0.25" | _ => "0.75" end)
    [GestureEvent 1] [GestureEvent 2] [GestureEvent 3]
    (mkWorld [] true "Learn Go" 0) eq_refl))).
Defined.

Lemma open_then_cancel_is_a_round_trip_witness :
  runEvents (fun _ => "0.5") [EvOpen [GestureEvent 1]; EvCancel [GestureEvent 2]]
    (mkWorld [mkGoal "Learn Go" "0.25"] false "half a thought" 1)
  = mkWorld [mkGoal "Learn Go" "0.25"] false "half a thought" 1.
Proof.
  apply (open_then_cancel_is_a_round_trip (fun _ => "0.5")). reflexivity.
Defined.

(** ** How deletions count and compose *)

Lemma filter_comm (A : Type) (f g : A -> bool) (l : list A) :
  filter f (filter g l) = filter g (filter f l).
Proof.
  induction l as [| a rest IH]; simpl.
  - reflexivity.
  - destruct (f a) eqn:Ef, (g a) eqn:Eg; simpl;
      rewrite ?Ef, ?Eg, IH; reflexivity.
Qed.

(** X7: [deleteItem] shortens the list by exactly the number of goals that
    carry the id: never longer than before, the same length precisely when
    the id is absent. *)
Theorem deleteItem_length (goalId : string) (w : World) :
  List.length (listOfGoals (deleteItem goalId w)) + occurrences goalId (listOfGoals w)
  = List.length (listOfGoals w).
Proof.
  rewrite deleteItem_eq. cbn [listOfGoals]. unfold occurrences.
  induction (listOfGoals w) as [| goal rest IH]; simpl.
  - reflexivity.
  - unfold keeps at 1.
    destruct (String.eqb (id goal) goalId); simpl; lia.
Qed.

(** X8: two deletions can be made in either order: the resulting state is
    the same. *)
Theorem deleteItem_commutes (goalId1 goalId2 : string) (w : World) :
  deleteItem goalId1 (deleteItem goalId2 w) = deleteItem goalId2 (deleteItem goalId1 w).
Proof.
  rewrite !deleteItem_eq. cbn [listOfGoals modalIsVisible enteredGoal randomCalls].
  rewrite filter_comm. reflexivity.
Qed.

Section AddThenDelete.

Variable rnd : nat -> string.

(** X9: deleting the id that [addItem] has just drawn removes the new goal
    together with every older goal that happens to carry the same id; when
    no older goal carries it, the list is back to what it was before the
    addition. *)
Theorem delete_undoes_add (enteredText : string) (w : World) :
  listOfGoals (deleteItem (rnd (randomCalls w)) (addItem rnd enteredText w)) =
    listOfGoals (deleteItem (rnd (randomCalls w)) w)
  /\ (Forall (fun goal => id goal <> rnd (randomCalls w)) (listOfGoals w) ->
      listOfGoals (deleteItem (rnd (randomCalls w)) (addItem rnd enteredText w)) =
        listOfGoals w).
Proof.
  assert (E : listOfGoals (deleteItem (rnd (randomCalls w)) (addItem rnd enteredText w)) =
              listOfGoals (deleteItem (rnd (randomCalls w)) w)).
  { rewrite !deleteItem_eq, addItem_eq. cbn [listOfGoals].
    rewrite filter_app. simpl. unfold keeps at 2. cbn [id].
    rewrite String.eqb_refl. simpl. apply app_nil_r. }
  split; [exact E |].
  intro Hfresh. rewrite E, deleteItem_eq. cbn [listOfGoals].
  apply filter_keeps_absent. exact Hfresh.
Qed.

(** X10: a deletion of any id other than the one the next addition draws can
    be moved across that addition: deleting after adding gives the same state
    as adding after deleting. *)
Theorem delete_add_commute (goalId enteredText : string) (w : World) :
  goalId <> rnd (randomCalls w) ->
  deleteItem goalId (addItem rnd enteredText w) =
    addItem rnd enteredText (deleteItem goalId w).
Proof.
  intro Hother. rewrite !deleteItem_eq, !addItem_eq.
  cbn [listOfGoals modalIsVisible enteredGoal randomCalls].
  rewrite filter_app. simpl.
  assert (K : keeps goalId (mkGoal enteredText (rnd (randomCalls w))) = true).
  { apply keeps_true. cbn [id]. intro E. apply Hother. symmetry. exact E. }
  rewrite K. reflexivity.
Qed.

End AddThenDelete.

Lemma delete_undoes_add_witness :
  let rnd := fun k => match k with 0 => "0.25" | _ => "0.75" end in
  let w := mkWorld [mkGoal "Learn Go" "0.25"] true "Learn Rust" 1 in
  listOfGoals (deleteItem "0.75" (addItem rnd "Learn Rust" w)) = [mkGoal "Learn Go" "0.25"].
Proof.
  cbv zeta.
  refine (proj2 (delete_undoes_add
    (fun k => match k with 0 => "0.25" | _ => "0.75" end) "Learn Rust"
    (mkWorld [mkGoal "Learn Go" "0.25"] true "Learn Rust" 1)) _).
  repeat constructor. simpl. discriminate.
Defined.

Lemma delete_add_commute_witness :
  let rnd := fun k => match k with 0 => "0.25" | _ => "0.75" end in
  let w := mkWorld [mkGoal "Learn Go" "0.25"] true "Learn Rust" 1 in
  deleteItem "0.25" (addItem rnd "Learn Rust" w) =
    addItem rnd "Learn Rust" (deleteItem "0.25" w).
Proof.
  cbv zeta.
  apply (delete_add_commute (fun k => match k with 0 => "0.25" | _ => "0.75" end)).
  simpl. discriminate.
Defined.

(** ** Invariants of runs of events *)

Lemma Subseq_refl (A : Type) (l : list A) : Subseq l l.
Proof. induction l; constructor; assumption. Qed.

Lemma Subseq_trans (A : Type) (l2 l3 : list A) :
  Subseq l2 l3 -> forall l1, Subseq l1 l2 -> Subseq l1 l3.
Proof.
  induction 1 as [| x l2 l3 _ IH | x l2 l3 _ IH]; intros l1 H12.
  - exact H12.
  - apply Subseq_skip. exact (IH _ H12).
  - inversion H12 as [| y k1 k2 Hk | y k1 k2 Hk]; subst.
    + apply Subseq_skip. exact (IH _ Hk).
    + apply Subseq_keep. exact (IH _ Hk).
Qed.

Lemma Subseq_filter (A : Type) (f : A -> bool) (l : list A) :
  Subseq (filter f l) l.
Proof.
  induction l as [| a rest IH]; simpl.
  - constructor.
  - destruct (f a); constructor; exact IH.
Qed.

Lemma Subseq_app_tail (A : Type) (l1 l2 tail : list A) :
  Subseq l1 l2 -> Subseq (l1 ++ tail) (l2 ++ tail).
Proof.
  induction 1; simpl.
  - apply Subseq_refl.
  - apply Subseq_skip. assumption.
  - apply Subseq_keep. assumption.
Qed.

Section Runs.

Variable rnd : nat -> string.

Lemma countSubmits_cons (ev : Event) (evs : list Event) :
  countSubmits (ev :: evs) =
  match ev with EvSubmit _ => 1 | _ => 0 end + countSubmits evs.
Proof. destruct ev; reflexivity. Qed.

Lemma createdBy_length (w : World) (ev : Event) :
  List.length (createdBy rnd w ev) <= match ev with EvSubmit _ => 1 | _ => 0 end.
Proof.
  destruct ev; cbn; try lia. destruct (modalIsVisible w); cbn; lia.
Qed.

Lemma createdBy_ids (w : World) (ev : Event) :
  map id (createdBy rnd w ev) =
  map rnd (seq (randomCalls w) (List.length (createdBy rnd w ev))).
Proof.
  destruct ev; try reflexivity. cbn. destruct (modalIsVisible w); reflexivity.
Qed.

Lemma stepEvent_randomCalls (w : World) (ev : Event) :
  randomCalls (stepEvent rnd w ev) =
  randomCalls w + List.length (createdBy rnd w ev).
Proof.
  rewrite stepEvent_eq. destruct ev as [args | enteredText | args | args | i args];
    cbn [createdBy].
  - cbn. lia.
  - destruct (modalIsVisible w); cbn; lia.
  - destruct (modalIsVisible w); cbn; lia.
  - destruct (modalIsVisible w); cbn; lia.
  - destruct (nth_error (listOfGoals w) i); cbn; lia.
Qed.

Lemma stepEvent_appends (w : World) (ev : Event) :
  isDelete ev = false ->
  listOfGoals (stepEvent rnd w ev) = listOfGoals w ++ createdBy rnd w ev.
Proof.
  intro Hev. rewrite stepEvent_eq.
  destruct ev as [args | enteredText | args | args | i args]; cbn [createdBy].
  - cbn. symmetry. apply app_nil_r.
  - destruct (modalIsVisible w); cbn; symmetry; apply app_nil_r.
  - destruct (modalIsVisible w).
    + reflexivity.
    + symmetry. apply app_nil_r.
  - destruct (modalIsVisible w); cbn; symmetry; apply app_nil_r.
  - discriminate Hev.
Qed.

Lemma stepEvent_Subseq (w : World) (ev : Event) :
  Subseq (listOfGoals (stepEvent rnd w ev)) (listOfGoals w ++ createdBy rnd w ev).
Proof.
  destruct (isDelete ev) eqn:Hev.
  - destruct ev as [args | enteredText | args | args | i args]; try discriminate Hev.
    rewrite stepEvent_eq. cbn [createdBy]. rewrite app_nil_r.
    destruct (nth_error (listOfGoals w) i) as [goal |]; [| apply Subseq_refl].
    rewrite deleteItem_eq. apply Subseq_filter.
  - rewrite (stepEvent_appends w ev Hev). apply Subseq_refl.
Qed.

(** X11: in a run of events, [Math.random] is evaluated once for each goal
    the run creates and by nothing else; a run makes at most one goal per
    press on "Add Goal" (none when the form is hidden); and in a run without
    a press on "Delete" the list afterwards is the list from before followed
    by exactly the goals created, whose ids are the successive values drawn. *)
Theorem one_draw_per_submission (evs : list Event) (w : World) :
  randomCalls (runEvents rnd evs w) =
    randomCalls w + List.length (created rnd evs w)
  /\ List.length (created rnd evs w) <= countSubmits evs
  /\ (existsb isDelete evs = false ->
      listOfGoals (runEvents rnd evs w) = listOfGoals w ++ created rnd evs w
      /\ map id (listOfGoals (runEvents rnd evs w)) =
           map id (listOfGoals w) ++
           map rnd (seq (randomCalls w) (List.length (created rnd evs w)))).
Proof.
  revert w. induction evs as [| ev rest IH]; intro w.
  - cbn. rewrite !app_nil_r. repeat split; lia.
  - rewrite runEvents_cons, countSubmits_cons. cbn [created existsb].
    destruct (IH (stepEvent rnd w ev)) as [Hcalls [Hcount Hlist]].
    pose proof (stepEvent_randomCalls w ev) as Sc.
    pose proof (createdBy_length w ev) as Sl.
    rewrite length_app.
    split; [lia | split; [lia |]].
    intro Hnodelete. apply orb_false_iff in Hnodelete.
    destruct Hnodelete as [Hev Hrest].
    destruct (Hlist Hrest) as [Hgoals Hids].
    rewrite Hids, Hgoals, (stepEvent_appends w ev Hev), Sc.
    split.
    + rewrite app_assoc. reflexivity.
    + rewrite map_app, <- app_assoc, seq_app, map_app, (createdBy_ids w ev).
      reflexivity.
Qed.

(** X12: the list is always in order of creation: after any run of events it
    is the list from before the run followed by the goals created during the
    run, in that order, with some goals left out; no goal is moved, changed
    or repeated. *)
Theorem list_stays_in_creation_order (evs : list Event) (w : World) :
  Subseq (listOfGoals (runEvents rnd evs w)) (listOfGoals w ++ created rnd evs w).
Proof.
  revert w. induction evs as [| ev rest IH]; intro w.
  - simpl. rewrite app_nil_r. apply Subseq_refl.
  - rewrite runEvents_cons. cbn [created].
    apply (Subseq_trans _
             (listOfGoals (stepEvent rnd w ev) ++ created rnd rest (stepEvent rnd w ev)));
      [| apply IH].
    rewrite app_assoc. apply Subseq_app_tail. apply stepEvent_Subseq.
Qed.

End Runs.

Lemma one_draw_per_submission_witness :
  let rnd := fun k => match k with 0 => "0.25" | _ => "0.75" end in
  let evs := [EvSubmit [GestureEvent 1]; EvOpen []; EvType "Learn Go";
              EvSubmit [GestureEvent 2]; EvSubmit [GestureEvent 3]] in
  listOfGoals (runEvents rnd evs initialWorld) = created rnd evs initialWorld
  /\ created rnd evs initialWorld = [mkGoal "Learn Go" "0.25"].
Proof.
  cbv zeta. split; [| reflexivity].
  exact (proj1 (proj2 (proj2 (one_draw_per_submission
    (fun k => match k with 0 => "0.25" | _ => "0.75" end)
    [EvSubmit [GestureEvent 1]; EvOpen []; EvType "Learn Go";
     EvSubmit [GestureEvent 2]; EvSubmit [GestureEvent 3]] initialWorld)) eq_refl)).
Defined.

(** ** Keys of the rendered list *)

Section Keys.

Variable rnd : nat -> string.





End Keys.


(** ** The form, whatever its parent *)

(** X14: for any callbacks a parent hands to [GoalInput]: while the modal is
    visible, a press on "Add Goal" runs the parent's [addGoalHanlder] on the
    draft and then queues only the reset of the draft, never calling
    [closeModal], and a press on "Cancel" runs the parent's [closeModal] on
    the arguments of the press, and nothing else; while the modal is hidden
    the form mounts neither button. *)
Theorem GoalInput_buttons_call_the_parent
    (props : GoalInputProps) (draft : string)
    (args : list JsValue) (queue : list Update) :
  (visibilty props = true ->
   match findByLabel "Add Goal" (GoalInput props draft) with
   | Some e => option_map (fun body => snd (body queue)) (activate e args)
   | None => None
   end = Some (snd (addGoalHanlder props draft queue) ++ [UpdEnteredGoal ""])
   /\ match findByLabel "Cancel" (GoalInput props draft) with
      | Some e => option_map (fun body => body queue) (activate e args)
      | None => None
      end = Some (closeModal props args queue))
  /\ (visibilty props = false ->
      findByLabel "Add Goal" (GoalInput props draft) = None
      /\ findByLabel "Cancel" (GoalInput props draft) = None).
Proof.
  destruct props as [onAdd visible onClose]. cbn [visibilty].
  split; intro Hflag; subst visible.
  - split.
    + cbn. unfold handleAddNewGoal, bind. cbn [addGoalHanlder].
      destruct (onAdd draft queue) as [u queue']. reflexivity.
    + reflexivity.
  - split; reflexivity.
Qed.

Lemma GoalInput_buttons_call_the_parent_witness :
  let props :=
    mkGoalInputProps (fun goalText => setEnteredGoal goalText) true
                     (fun _ => setModalIsVisible false) in
  match findByLabel "Add Goal" (GoalInput props "Learn Go") with
  | Some e => option_map (fun body => snd (body [])) (activate e [GestureEvent 5])
  | None => None
  end = Some [UpdEnteredGoal "Learn Go"; UpdEnteredGoal ""].
Proof.
  cbv zeta.
  exact (proj1 (proj1 (GoalInput_buttons_call_the_parent
    (mkGoalInputProps (fun goalText => setEnteredGoal goalText) true
                      (fun _ => setModalIsVisible false))
    "Learn Go" [GestureEvent 5] []) eq_refl)).
Defined.

(** ** The cards and their delete button *)

Lemma filter_keeps_nth (goals : list Goal) :
  NoDup (map id goals) ->
  forall (i : nat) (goal : Goal),
    nth_error goals i = Some goal ->
    filter (keeps (id goal)) goals = firstn i goals ++ skipn (S i) goals.
Proof.
  induction goals as [| first rest IH]; intros Hnodup i goal Hnth.
  - destruct i; discriminate Hnth.
  - cbn [map] in Hnodup. apply NoDup_cons_iff in Hnodup.
    destruct Hnodup as [Hfirst Hrest].
    destruct i as [| i]; cbn [nth_error] in Hnth.
    + injection Hnth as ->. cbn [filter firstn skipn app].
      unfold keeps at 1. rewrite String.eqb_refl. cbn [negb].
      apply filter_keeps_absent. apply Forall_forall. intros other Hin E.
      apply Hfirst. rewrite <- E. apply in_map. exact Hin.
    + cbn [filter firstn skipn app].
      assert (K : keeps (id goal) first = true).
      { apply keeps_true. intro E. apply Hfirst. rewrite E.
        apply in_map. exact (nth_error_In _ _ Hnth). }
      rewrite K. f_equal. exact (IH Hrest i goal Hnth).
Qed.

Lemma cardTitle_rowsOf (E : Type) (onDeleteGoal : string -> E)
    (data : list Goal) (from : nat) :
  map cardTitle
      (map (fun p => GoalCard (mkItemData (snd p) (fst p)) onDeleteGoal)
           (combine (seq from (List.length data)) data))
  = map (fun goal => Some (text goal)) data.
Proof.
  revert from. induction data as [| goal rest IH]; intro from; cbn [List.length seq combine map].
  - reflexivity.
  - rewrite IH. reflexivity.
Qed.

(** X15: a card's delete button calls the callback it was given with the id
    of the card's goal and with nothing else: the press event and the
    position of the card are not passed on, and a goal whose own text is
    "Delete" does not confuse the button. *)
Theorem GoalCard_delete_passes_the_id
    (E : Type) (goal : ItemData) (onDeleteGoal : string -> E) (args : list JsValue) :
  match findByLabel "Delete" (GoalCard goal onDeleteGoal) with
  | Some e => activate e args
  | None => None
  end = Some (onDeleteGoal (id (item goal))).
Proof. reflexivity. Qed.

Section Cards.

Variable rnd : nat -> string.

(** X16: the list shows one card per goal, in the order of the list, each
    with the text of its goal. *)
Theorem one_card_per_goal_in_order (w : World) :
  map cardTitle (rows rnd w) = map (fun goal => Some (text goal)) (listOfGoals w)
  /\ List.length (rows rnd w) = List.length (listOfGoals w).
Proof.
  assert (H : map cardTitle (rows rnd w)
              = map (fun goal => Some (text goal)) (listOfGoals w)).
  { unfold rows.
    rewrite findFlatList_eq. unfold rowsOf, renderItem. apply cardTitle_rowsOf. }
  split; [exact H |].
  apply (f_equal (@List.length _)) in H. rewrite !length_map in H. exact H.
Qed.

(** X17: a press on "Delete" in the card at position [i] deletes by the id of
    the goal at position [i]; at a position past the end of the list there is
    no card to press. *)
Theorem delete_press_uses_the_id_at_that_position
    (i : nat) (args : list JsValue) (w : World) :
  pressDelete rnd i args w =
    option_map (fun goal => deleteItem (id goal) w) (nth_error (listOfGoals w) i)
  /\ (List.length (listOfGoals w) <= i -> pressDelete rnd i args w = None).
Proof.
  split; [apply pressDelete_eq |].
  intro Hpast. rewrite pressDelete_eq.
  apply nth_error_None in Hpast. rewrite Hpast. reflexivity.
Qed.

(** X18: when no two goals share an id, a press on "Delete" in the card at
    position [i] removes the goal at position [i] and no other: the list is
    what came before it followed by what came after it, and flag, draft and
    random source are as they were. *)
Theorem delete_press_removes_that_card
    (i : nat) (args : list JsValue) (w : World) (goal : Goal) :
  NoDup (map id (listOfGoals w)) ->
  nth_error (listOfGoals w) i = Some goal ->
  pressDelete rnd i args w =
    Some (mkWorld (firstn i (listOfGoals w) ++ skipn (S i) (listOfGoals w))
                  (modalIsVisible w) (enteredGoal w) (randomCalls w)).
Proof.
  intros Hnodup Hnth. rewrite pressDelete_eq, Hnth. cbn [option_map].
  rewrite deleteItem_eq, (filter_keeps_nth _ Hnodup i goal Hnth). reflexivity.
Qed.

End Cards.

Lemma delete_press_uses_the_id_at_that_position_witness :
  pressDelete (fun _ => "0.5") 3 [GestureEvent 9]
    (mkWorld [mkGoal "Learn Go" "0.25"; mkGoal "Learn Rust" "0.75"] false "" 2)
  = None.
Proof.
  refine (proj2 (delete_press_uses_the_id_at_that_position (fun _ => "0.5") 3
    [GestureEvent 9]
    (mkWorld [mkGoal "Learn Go" "0.25"; mkGoal "Learn Rust" "0.75"] false "" 2)) _).
  simpl. lia.
Defined.

Lemma delete_press_removes_that_card_witness :
  pressDelete (fun _ => "0.5") 1 [GestureEvent 9]
    (mkWorld [mkGoal "Learn Go" "0.25"; mkGoal "Learn Rust" "0.75"; mkGoal "" "0.5"]
             false "draft" 3)
  = Some (mkWorld [mkGoal "Learn Go" "0.25"; mkGoal "" "0.5"] false "draft" 3).
Proof.
  refine (delete_press_removes_that_card (fun _ => "0.5") 1 [GestureEvent 9]
    (mkWorld [mkGoal "Learn Go" "0.25"; mkGoal "Learn Rust" "0.75"; mkGoal "" "0.5"]
             false "draft" 3)
    (mkGoal "Learn Rust" "0.75") _ _).
  - simpl. repeat constructor; simpl; intuition discriminate.
  - reflexivity.
Defined.
